(** * The unenroll confirmation modal: state hooks and their flow

    A shallow embedding of
    [src/containers/UnenrollConfirmModal/hooks.js]: the two React hooks
    [useUnenrollReasons] and [useUnenrollData], the five [useState] cells
    they own, and the handlers they hand to the view.

    Reading guide.
    - A hook is a function of the cells' values at one render; it returns the
      values it exposes and the handlers closed over that render.
    - A handler is a computation in a small writer/exception monad: it logs,
      in program order, every setter call and every call to an external
      callback, and it stops at the first callback that throws.
    - One user event runs one handler of the current render; the setter
      calls it logged are then committed to the cells and the hook renders
      again. *)

From Stdlib Require Import String List Bool.
From Stdlib Require Import Ascii.
Import ListNotations.
Local Open Scope string_scope.
Local Open Scope list_scope.

(** ** JavaScript values that occur in the hooks *)

(** [selectedReason] and [submittedReason] hold [null] or a string:
    [None] is [null], [Some s] the string [s]. *)
Definition nullable (A : Type) : Type := option A.

(** [v === s] for a nullable string [v] and a string literal [s]. *)
Definition strict_eq (v : nullable string) (s : string) : bool :=
  match v with
  | Some k => String.eqb k s
  | None => false
  end.

(** [v !== null]. *)
Definition not_null {A : Type} (v : nullable A) : bool :=
  match v with
  | Some _ => true
  | None => false
  end.

(** ** The [useState] cells (hooks.js, lines 9-15) *)

Module state.

Record t : Type := mk {
  confirmed : bool;
  customOption : string;
  isSkipped : bool;
  selectedReason : nullable string;
  submittedReason : nullable string;
}.

End state.

(** The values the cells are created with: the arguments of the
    [module.state.*] calls at lines 24-27 and 67. *)
Definition initial : state.t :=
  {| state.confirmed := false;
     state.customOption := "";
     state.isSkipped := false;
     state.selectedReason := None;
     state.submittedReason := None |}.

(** ** [modalStates] (lines 17-21) *)

Module modalStates.

Definition confirm : string := "confirm".
Definition reason : string := "reason".
Definition finished : string := "finished".

End modalStates.

(** ** External collaborators *)

(** A value thrown by a callback. *)
Definition exn : Type := string.

(** What one call of an external callback does, as seen by its caller. *)
Inductive outcome : Type :=
| Returns
| Throws (e : exn).

(** Modelled from the spec: [thunkActions] is imported from [data/redux],
    which is not among the sources.  The spec says the controller "only ever
    sends one symbolic action (refresh the enrollment list)" through
    [dispatch]; [refreshList ()] builds that action. *)
Inductive reduxAction : Type :=
| RefreshList.

Module thunkActions.
Module app.

Definition refreshList (_ : unit) : reduxAction := RefreshList.

End app.
End thunkActions.

(** The argument [{ closeModal, dispatch }] of [useUnenrollData].  A handler
    calls each callback at most once, so a callback is given by what that
    call does. *)
Record props : Type := mkProps {
  closeModal : unit -> outcome;
  dispatch : reduxAction -> outcome;
}.

(** ** Handlers: a writer/exception monad *)

(** What a handler does that is visible outside it, in program order. *)
Inductive effect : Type :=
| CallDispatch (a : reduxAction)
| CallCloseModal
| SetConfirmed (v : bool)
| SetCustomOption (v : string)
| SetIsSkipped (v : bool)
| SetSelectedReason (v : nullable string)
| SetSubmittedReason (v : nullable string).

Inductive completion (A : Type) : Type :=
| Normal (a : A)
| Abrupt (e : exn).

Arguments Normal {A} a.
Arguments Abrupt {A} e.

Definition M (A : Type) : Type := (list effect * completion A)%type.

Definition ret {A : Type} (a : A) : M A := ([], Normal a).

Definition bind {A B : Type} (m : M A) (f : A -> M B) : M B :=
  match m with
  | (l, Normal a) => let (l', r) := f a in (l ++ l', r)
  | (l, Abrupt e) => (l, Abrupt e)
  end.

Definition emit (e : effect) : M unit := ([e], Normal tt).

Definition throw {A : Type} (e : exn) : M A := ([], Abrupt e).

Notation "c1 ;; c2" := (bind c1 (fun _ => c2))
  (at level 61, right associativity).

(** Calling an external callback: the call is logged, then the callback
    returns or its exception propagates. *)
Definition external (e : effect) (o : outcome) : M unit :=
  emit e ;;
  match o with
  | Returns => ret tt
  | Throws x => throw x
  end.

Definition effects {A : Type} (m : M A) : list effect := fst m.

Definition completes {A : Type} (m : M A) : bool :=
  match snd m with
  | Normal _ => true
  | Abrupt _ => false
  end.

(** [React.useCallback (f, deps)] returns [f] of the render in which [deps]
    last changed.  Every callback of this file lists in [deps] every render
    value it reads, so the memoised function always equals the current one. *)
Definition useCallback {A : Type} (f : A) : A := f.

(** Modelled from the spec: [useValueCallback] is imported from [hooks],
    which is not among the sources.  The spec says [selectOption (key)] "sets
    selected" and [customOption.onChange (text)] sets the free text: the
    callback hands the value it receives to the setter. *)
Definition useValueCallback {A : Type} (cb : A -> M unit) : A -> M unit :=
  useCallback (fun v => cb v).

(** ** What the hooks return *)

Module CustomOption.

Record t : Type := mk {
  value : string;
  onChange : string -> M unit;
}.

End CustomOption.

Module Reason.

Record t : Type := mk {
  clear : M unit;
  value : nullable string;
  customOption : CustomOption.t;
  selected : nullable string;
  selectOption : string -> M unit;
  isSkipped : bool;
  skip : M unit;
  isSubmitted : bool;
  submit : M unit;
}.

End Reason.

Module UnenrollData.

Record t : Type := mk {
  isConfirmed : bool;
  confirm : M unit;
  reason : Reason.t;
  close : M unit;
  closeAndRefresh : M unit;
  modalState : string;
}.

End UnenrollData.

(** ** [useUnenrollReasons] (lines 23-64) *)

Definition useUnenrollReasons (st : state.t) : Reason.t :=
  let selectedReason := state.selectedReason st in
  let setSelectedReason := fun v => emit (SetSelectedReason v) in
  let submittedReason := state.submittedReason st in
  let setSubmittedReason := fun v => emit (SetSubmittedReason v) in
  let isSkipped := state.isSkipped st in
  let setIsSkipped := fun v => emit (SetIsSkipped v) in
  let customOption := state.customOption st in
  let setCustomOption := fun v => emit (SetCustomOption v) in
  {| Reason.clear := useCallback (
       setSelectedReason None ;;
       setSubmittedReason None ;;
       setCustomOption "" ;;
       setIsSkipped false);
     Reason.value := submittedReason;
     Reason.customOption :=
       {| CustomOption.value := customOption;
          CustomOption.onChange := useValueCallback setCustomOption |};
     Reason.selected := selectedReason;
     Reason.selectOption :=
       useValueCallback (fun key => setSelectedReason (Some key));
     Reason.isSkipped := isSkipped;
     Reason.skip := useCallback (setIsSkipped true);
     Reason.isSubmitted := not_null submittedReason || isSkipped;
     Reason.submit := useCallback (
       if strict_eq selectedReason "custom"
       then setSubmittedReason (Some customOption)
       else setSubmittedReason selectedReason) |}.

(** ** [useUnenrollData] (lines 66-110) *)

Definition useUnenrollData (p : props) (st : state.t) : UnenrollData.t :=
  let isConfirmed := state.confirmed st in
  let setIsConfirmed := fun v => emit (SetConfirmed v) in
  let confirm := useCallback (setIsConfirmed true) in
  let reason := useUnenrollReasons st in
  let close := useCallback (
    external CallCloseModal (closeModal p tt) ;;
    setIsConfirmed false ;;
    Reason.clear reason) in
  let modalState :=
    if isConfirmed
    then (if Reason.isSubmitted reason
          then modalStates.finished
          else modalStates.reason)
    else modalStates.confirm in
  let closeAndRefresh := useCallback (
    (let a := thunkActions.app.refreshList tt in
     external (CallDispatch a) (dispatch p a)) ;;
    external CallCloseModal (closeModal p tt) ;;
    setIsConfirmed false ;;
    Reason.clear reason) in
  {| UnenrollData.isConfirmed := isConfirmed;
     UnenrollData.confirm := confirm;
     UnenrollData.reason := reason;
     UnenrollData.close := close;
     UnenrollData.closeAndRefresh := closeAndRefresh;
     UnenrollData.modalState := modalState |}.

(** ** Events: one handler per user action *)

(** The actions the returned object offers to the view. *)
Inductive call : Type :=
| Confirm
| SelectOption (key : string)
| OnChange (text : string)
| Skip
| Submit
| Clear
| Close
| CloseAndRefresh.

(** The handler of the render [api] that the call [c] invokes. *)
Definition handler (api : UnenrollData.t) (c : call) : M unit :=
  let reason := UnenrollData.reason api in
  match c with
  | Confirm => UnenrollData.confirm api
  | SelectOption key => Reason.selectOption reason key
  | OnChange text => CustomOption.onChange (Reason.customOption reason) text
  | Skip => Reason.skip reason
  | Submit => Reason.submit reason
  | Clear => Reason.clear reason
  | Close => UnenrollData.close api
  | CloseAndRefresh => UnenrollData.closeAndRefresh api
  end.

(** A setter call replaces the value of its cell; calls to external
    callbacks do not touch the cells. *)
Definition apply_effect (st : state.t) (e : effect) : state.t :=
  match e with
  | CallDispatch _ => st
  | CallCloseModal => st
  | SetConfirmed v =>
      state.mk v (state.customOption st) (state.isSkipped st)
        (state.selectedReason st) (state.submittedReason st)
  | SetCustomOption v =>
      state.mk (state.confirmed st) v (state.isSkipped st)
        (state.selectedReason st) (state.submittedReason st)
  | SetIsSkipped v =>
      state.mk (state.confirmed st) (state.customOption st) v
        (state.selectedReason st) (state.submittedReason st)
  | SetSelectedReason v =>
      state.mk (state.confirmed st) (state.customOption st)
        (state.isSkipped st) v (state.submittedReason st)
  | SetSubmittedReason v =>
      state.mk (state.confirmed st) (state.customOption st)
        (state.isSkipped st) (state.selectedReason st) v
  end.

(** The setter calls of one handler are committed together, in the order
    they were made, before the next render. *)
Definition commit (st : state.t) (log : list effect) : state.t :=
  fold_left apply_effect log st.

(** One event: the handler of the render of [st] runs to its end (or to the
    first exception).  Returned: the cells at the next render, what the
    handler did, and how it ended. *)
Definition step (p : props) (st : state.t) (c : call)
  : state.t * list effect * completion unit :=
  let m := handler (useUnenrollData p st) c in
  (commit st (fst m), fst m, snd m).

Definition next (p : props) (st : state.t) (c : call) : state.t :=
  commit st (effects (handler (useUnenrollData p st) c)).

(** A sequence of events, each on the render that follows the one before. *)
Fixpoint run (p : props) (st : state.t) (cs : list call) : state.t :=
  match cs with
  | [] => st
  | c :: cs' => run p (next p st c) cs'
  end.

(** Several handlers of one and the same render called within one event:
    all of them are closed over the values of that render, and their setter
    calls are committed together afterwards. *)
Fixpoint batch (api : UnenrollData.t) (cs : list call) : M unit :=
  match cs with
  | [] => ret tt
  | c :: cs' => handler api c ;; batch api cs'
  end.

Definition nextBatch (p : props) (st : state.t) (cs : list call) : state.t :=
  commit st (effects (batch (useUnenrollData p st) cs)).

(** States a session can be in: the initial one, and those one event away
    from a state a session can be in, whatever callbacks the render had. *)
Inductive reachable : state.t -> Prop :=
| reachable_initial : reachable initial
| reachable_next (p : props) (st : state.t) (c : call) :
    reachable st -> reachable (next p st c).

(** ** What the view reads at a render *)

Definition modalState (p : props) (st : state.t) : string :=
  UnenrollData.modalState (useUnenrollData p st).

Definition isConfirmed (p : props) (st : state.t) : bool :=
  UnenrollData.isConfirmed (useUnenrollData p st).

Definition reasonOf (p : props) (st : state.t) : Reason.t :=
  UnenrollData.reason (useUnenrollData p st).

Definition isSubmitted (p : props) (st : state.t) : bool :=
  Reason.isSubmitted (reasonOf p st).

Definition value (p : props) (st : state.t) : nullable string :=
  Reason.value (reasonOf p st).

Definition selected (p : props) (st : state.t) : nullable string :=
  Reason.selected (reasonOf p st).

Definition customOptionValue (p : props) (st : state.t) : string :=
  CustomOption.value (Reason.customOption (reasonOf p st)).

Definition isSkipped (p : props) (st : state.t) : bool :=
  Reason.isSkipped (reasonOf p st).

(** ** Concrete collaborators used in the examples *)

(** Callbacks that return. *)
Definition quietProps : props :=
  {| closeModal := fun _ => Returns; dispatch := fun _ => Returns |}.

(** A [closeModal] that throws. *)
Definition closeThrows : props :=
  {| closeModal := fun _ => Throws "closeModal failed";
     dispatch := fun _ => Returns |}.

(** A [dispatch] that throws. *)
Definition dispatchThrows : props :=
  {| closeModal := fun _ => Returns;
     dispatch := fun _ => Throws "refresh failed" |}.

(** A session that confirmed and submitted a reason. *)
Definition finishedSession : state.t :=
  run quietProps initial
    [Confirm; SelectOption "found-another-course"; Submit].

(** A session that skipped the reason before confirming. *)
Definition skippedFirst : state.t := next quietProps initial Skip.

(** ** The spec's reading of the derived values (spec, section 3) *)

(** The three phases the spec names. *)
Inductive phase : Type :=
| CONFIRM
| REASON
| FINISHED.

(** The string of [modalStates] that stands for a phase. *)
Definition phaseName (ph : phase) : string :=
  match ph with
  | CONFIRM => modalStates.confirm
  | REASON => modalStates.reason
  | FINISHED => modalStates.finished
  end.

(** "isSubmitted = (SubmittedReason !== null) OR SkippedFlag". *)
Definition spec_isSubmitted
  (submittedReason : nullable string) (skippedFlag : bool) : bool :=
  match submittedReason with
  | Some _ => true
  | None => skippedFlag
  end.

(** "if !ConfirmedFlag -> CONFIRM; else if !isSubmitted -> REASON;
    else -> FINISHED". *)
Definition spec_modalPhase (confirmedFlag isSubmittedFlag : bool) : phase :=
  if negb confirmedFlag then CONFIRM
  else if negb isSubmittedFlag then REASON
  else FINISHED.

(** ** Helpers for the statements *)

Definition returns (o : outcome) : bool :=
  match o with
  | Returns => true
  | Throws _ => false
  end.

(** Whether every external callback that the handler of [c] gets to call
    returns: [close] calls [closeModal]; [closeAndRefresh] calls [dispatch]
    and, if that returned, [closeModal]; the other handlers call none. *)
Definition callbacksReturn (p : props) (c : call) : bool :=
  match c with
  | Close => returns (closeModal p tt)
  | CloseAndRefresh =>
      returns (dispatch p (thunkActions.app.refreshList tt))
      && returns (closeModal p tt)
  | _ => true
  end.

(** The setter calls of [reason.clear ()], in program order. *)
Definition clearCalls : list effect :=
  [SetSelectedReason None; SetSubmittedReason None;
   SetCustomOption ""; SetIsSkipped false].

(** The view's discipline: Reason Capture is shown, and so its actions are
    used, only at a render whose [isConfirmed] is true. *)
Definition viewOffers (st : state.t) (c : call) : bool :=
  match c with
  | SelectOption _ | OnChange _ | Skip | Submit => state.confirmed st
  | _ => true
  end.

Inductive presented : state.t -> Prop :=
| presented_initial : presented initial
| presented_next (p : props) (st : state.t) (c : call) :
    presented st -> viewOffers st c = true -> presented (next p st c).


(** The five cells, and what it means for one to hold the same value in
    two states. *)
Inductive cell : Type :=
| ConfirmedCell
| CustomOptionCell
| IsSkippedCell
| SelectedReasonCell
| SubmittedReasonCell.

Definition sameCell (x : cell) (st st' : state.t) : Prop :=
  match x with
  | ConfirmedCell => state.confirmed st = state.confirmed st'
  | CustomOptionCell => state.customOption st = state.customOption st'
  | IsSkippedCell => state.isSkipped st = state.isSkipped st'
  | SelectedReasonCell => state.selectedReason st = state.selectedReason st'
  | SubmittedReasonCell =>
      state.submittedReason st = state.submittedReason st'
  end.

(** The cells whose setter the handler of a call names in its body. *)
Definition setterOf (c : call) (x : cell) : bool :=
  match c, x with
  | Confirm, ConfirmedCell => true
  | SelectOption _, SelectedReasonCell => true
  | OnChange _, CustomOptionCell => true
  | Skip, IsSkippedCell => true
  | Submit, SubmittedReasonCell => true
  | Clear, ConfirmedCell => false
  | Clear, _ => true
  | Close, _ => true
  | CloseAndRefresh, _ => true
  | _, _ => false
  end.

(** The value [submit] of the render of [st] hands to [setSubmittedReason]. *)
Definition submitted (st : state.t) : nullable string :=
  if strict_eq (state.selectedReason st) "custom"
  then Some (state.customOption st)
  else state.selectedReason st.

(** * Test utilities (the second part of the source, lines 113-329) *)

(** ** Strings and plain objects *)

(** A string is the sequence of its code units; of the units only the
    characters [{], [}], [.], [$], [&], the backquote and the quote are ever
    told apart from the others. *)

(** Whether the unit [c] occurs in [s]. *)
Fixpoint occurs (c : ascii) (s : string) : bool :=
  match s with
  | EmptyString => false
  | String d s' => Ascii.eqb d c || occurs c s'
  end.

(** [s.startsWith (pat)]. *)
Fixpoint startsWith (pat s : string) : bool :=
  match pat, s with
  | EmptyString, _ => true
  | String _ _, EmptyString => false
  | String a pat', String b s' => Ascii.eqb a b && startsWith pat' s'
  end.

(** [s.slice (n)]. *)
Fixpoint slice (n : nat) (s : string) : string :=
  match n, s with
  | O, _ => s
  | S _, EmptyString => EmptyString
  | S n', String _ s' => slice n' s'
  end.

(** The first occurrence of [pat] in [s], as the text before it and the
    text after it; [None] when [s.indexOf (pat)] is [-1]. *)
Fixpoint splitFirst (pat s : string) : option (string * string) :=
  if startsWith pat s then Some (EmptyString, slice (String.length pat) s)
  else
    match s with
    | EmptyString => None
    | String c s' =>
        match splitFirst pat s' with
        | Some (before, after) => Some (String c before, after)
        | None => None
        end
    end.

(** The replacement text of [String.prototype.replace] for a string pattern
    (ECMAScript GetSubstitution with no captures): [$$] stands for a dollar
    sign, [$&] for the matched text, [$] and a backquote for the text before
    the match, [$'] for the text after it; any other [$] stands for
    itself. *)
Fixpoint getSubstitution (matched before after template : string) : string :=
  match template with
  | EmptyString => EmptyString
  | String c rest =>
      if Ascii.eqb c "$" then
        match rest with
        | EmptyString => String c EmptyString
        | String d rest' =>
            if Ascii.eqb d "$" then
              String "$" (getSubstitution matched before after rest')
            else if Ascii.eqb d "&" then
              matched ++ getSubstitution matched before after rest'
            else if Ascii.eqb d "`" then
              before ++ getSubstitution matched before after rest'
            else if Ascii.eqb d "'" then
              after ++ getSubstitution matched before after rest'
            else String c (getSubstitution matched before after rest)
        end
      else String c (getSubstitution matched before after rest)
  end.

(** [s.replace (pat, replacement)] for strings [pat] and [replacement]: the
    first occurrence only, and [s] itself when there is none. *)
Definition stringReplace (s pat replacement : string) : string :=
  match splitFirst pat s with
  | None => s
  | Some (before, after) =>
      before ++ getSubstitution pat before after replacement ++ after
  end.

(** A plain object: its own enumerable string keys, in the order
    [Object.keys] lists them, with their values.  The keys of an object are
    distinct. *)
Definition object (A : Type) : Type := list (string * A).

(** [obj[key]] for an own property; [None] when there is none. *)
Fixpoint get {A : Type} (obj : object A) (key : string) : option A :=
  match obj with
  | [] => None
  | (k, v) :: rest => if String.eqb k key then Some v else get rest key
  end.

(** [obj[key] = v], and also [{ ...obj, [key]: v }]: an existing key keeps
    its place and takes the new value, a new key goes last. *)
Fixpoint assign {A : Type} (obj : object A) (key : string) (v : A)
  : object A :=
  match obj with
  | [] => [(key, v)]
  | (k, w) :: rest =>
      if String.eqb k key then (k, v) :: rest
      else (k, w) :: assign rest key v
  end.

Fixpoint distinct (keys : list string) : bool :=
  match keys with
  | [] => true
  | k :: rest => negb (existsb (String.eqb k) rest) && distinct rest
  end.

(** ** [formatMessage] (lines 126-136) *)

Module Message.

Record t : Type := mk {
  defaultMessage : string;
}.

End Message.

(** The template literal [`{${key}}`]. *)
Definition placeholder (key : string) : string := "{" ++ key ++ "}".

(** [values] is [undefined] ([None]) or an object whose values are strings. *)
Definition formatMessage
  (msg : Message.t) (values : option (object string)) : string :=
  let message := Message.defaultMessage msg in
  match values with
  | None => message
  | Some vs =>
      fold_left
        (fun message '(key, v) => stringReplace message (placeholder key) v)
        vs message
  end.

(** ** [mockNestedComponent] and [mockNestedComponents] (lines 150-181) *)

(** The [contents] argument: a render name, or an object of child
    components. *)
#[warnings="-register-all"]
Inductive contents : Type :=
| Name (s : string)
| Children (entries : object contents).

(** What [mockNestedComponent] returns: the string it was given, or the
    function [fn] with its [name] and the properties assigned to it. *)
#[warnings="-register-all"]
Inductive component : Type :=
| Rendered (s : string)
| MockFn (name : string) (properties : object component).

Fixpoint mockNestedComponent (name : string) (c : contents) : component :=
  match c with
  | Name s => Rendered s
  | Children entries =>
      MockFn name
        (fold_left
           (fun fn '(nestedName, value) =>
              assign fn nestedName
                match value with
                | Name s => Rendered s
                | Children _ =>
                    mockNestedComponent (name ++ "." ++ nestedName) value
                end)
           entries [])
  end.

Definition mockNestedComponents (mapping : object contents)
  : object component :=
  fold_left
    (fun obj '(name, value) => assign obj name (mockNestedComponent name value))
    mapping [].

(** Property names that the assignment [fn[nestedName] = ...] does not turn
    into an own property of the arrow function [fn]: [name] and [length]
    are not writable, [caller] and [arguments] have a throwing setter, and
    [__proto__] sets the prototype. *)
Definition reservedKeys : list string :=
  ["name"; "length"; "caller"; "arguments"; "__proto__"].

(** Contents as the utility is meant to be given: at every level the keys
    are distinct and are ordinary property names. *)
Fixpoint wellKeyed (c : contents) : bool :=
  match c with
  | Name _ => true
  | Children entries =>
      distinct (map fst entries)
      && forallb (fun k => negb (existsb (String.eqb k) reservedKeys))
           (map fst entries)
      && forallb (fun kv => wellKeyed (snd kv)) entries
  end.

(** Following a path of property names. *)
Fixpoint contentsAt (c : contents) (path : list string) : option contents :=
  match path with
  | [] => Some c
  | k :: rest =>
      match c with
      | Name _ => None
      | Children entries =>
          match get entries k with
          | Some v => contentsAt v rest
          | None => None
          end
      end
  end.

Fixpoint componentAt (m : component) (path : list string)
  : option component :=
  match path with
  | [] => Some m
  | k :: rest =>
      match m with
      | Rendered _ => None
      | MockFn _ properties =>
          match get properties k with
          | Some v => componentAt v rest
          | None => None
          end
      end
  end.

(** The name a snapshot shows for a component: the string itself, or the
    [name] of the function. *)
Definition displayName (m : component) : string :=
  match m with
  | Rendered s => s
  | MockFn name _ => name
  end.

(** [name.k1.k2...] for the path [k1; k2; ...]. *)
Definition dotted (name : string) (path : list string) : string :=
  fold_left (fun n k => (n ++ "." ++ k)%string) path name.

(** The mapping of the usage note at lines 146-148. *)
Definition cardContents : contents :=
  Children
    [("Body", Name "Card.Body");
     ("Form",
      Children
        [("Control", Children [("Feedback", Name "Form.Control.Feedback")])])].

(** * Properties *)

(** ** The next render after each call *)

Ltac unfold_view :=
  unfold modalState, isConfirmed, isSubmitted, value, selected,
    customOptionValue, isSkipped, reasonOf in *.

Ltac by_cases_on st := destruct st as [cf txt sk sel sub]; cbn in *.

Lemma strict_eq_true_iff (v : nullable string) (s : string) :
  strict_eq v s = true <-> v = Some s.
Proof.
  destruct v as [k|]; cbn.
  - rewrite String.eqb_eq. split; congruence.
  - split; discriminate.
Qed.

Lemma phaseName_injective (a b : phase) : phaseName a = phaseName b -> a = b.
Proof.
  destruct a, b; cbv; intro H; try reflexivity; discriminate H.
Qed.

Lemma next_Confirm (p : props) (st : state.t) :
  next p st Confirm =
  state.mk true (state.customOption st) (state.isSkipped st)
    (state.selectedReason st) (state.submittedReason st).
Proof. reflexivity. Qed.

Lemma next_SelectOption (p : props) (st : state.t) (key : string) :
  next p st (SelectOption key) =
  state.mk (state.confirmed st) (state.customOption st) (state.isSkipped st)
    (Some key) (state.submittedReason st).
Proof. reflexivity. Qed.

Lemma next_OnChange (p : props) (st : state.t) (text : string) :
  next p st (OnChange text) =
  state.mk (state.confirmed st) text (state.isSkipped st)
    (state.selectedReason st) (state.submittedReason st).
Proof. reflexivity. Qed.

Lemma next_Skip (p : props) (st : state.t) :
  next p st Skip =
  state.mk (state.confirmed st) (state.customOption st) true
    (state.selectedReason st) (state.submittedReason st).
Proof. reflexivity. Qed.

Lemma next_Submit (p : props) (st : state.t) :
  next p st Submit =
  state.mk (state.confirmed st) (state.customOption st) (state.isSkipped st)
    (state.selectedReason st)
    (if strict_eq (state.selectedReason st) "custom"
     then Some (state.customOption st)
     else state.selectedReason st).
Proof.
  unfold next, handler. cbn.
  destruct (strict_eq (state.selectedReason st) "custom"); reflexivity.
Qed.

Lemma next_Clear (p : props) (st : state.t) :
  next p st Clear = state.mk (state.confirmed st) "" false None None.
Proof. reflexivity. Qed.

Lemma next_Close (p : props) (st : state.t) :
  next p st Close = if returns (closeModal p tt) then initial else st.
Proof.
  unfold next, handler. cbn.
  destruct (closeModal p tt); reflexivity.
Qed.

Lemma next_CloseAndRefresh (p : props) (st : state.t) :
  next p st CloseAndRefresh =
  if returns (dispatch p RefreshList) && returns (closeModal p tt)
  then initial else st.
Proof.
  unfold next, handler. cbn. unfold thunkActions.app.refreshList.
  destruct (dispatch p RefreshList); [|reflexivity].
  destruct (closeModal p tt); reflexivity.
Qed.

(** What [modalState] reads does not depend on the callbacks. *)
Lemma modalState_props (p q : props) (st : state.t) :
  modalState p st = modalState q st.
Proof. reflexivity. Qed.

(** [modalState] is always one of the three strings of [modalStates]. *)
Lemma modalState_is_phase (p : props) (st : state.t) :
  exists ph, modalState p st = phaseName ph.
Proof.
  by_cases_on st. unfold_view. cbn.
  destruct cf; [destruct (not_null sub || sk)|].
  - exists FINISHED; reflexivity.
  - exists REASON; reflexivity.
  - exists CONFIRM; reflexivity.
Qed.

(** ** Phase sequencing *)

(** C1. The phase read at a render is the spec's function of the confirmed
    flag and of [isSubmitted], and [isSubmitted] is the spec's function of
    the submitted reason and the skipped flag.  From the initial state, with
    a [closeModal] that returns, the renders after [confirm ()],
    [selectOption ("found-another-course")], [submit ()] and [close ()] read
    CONFIRM (initially), REASON, REASON, FINISHED and CONFIRM, and
    [reason.value] is [null] after [close ()]. *)
Theorem modalState_phase_sequencing
  (p : props) (st : state.t) (Hclose : closeModal p tt = Returns) :
  modalState p st
    = phaseName (spec_modalPhase (state.confirmed st) (isSubmitted p st))
  /\ isSubmitted p st
    = spec_isSubmitted (state.submittedReason st) (state.isSkipped st)
  /\ (let s1 := next p initial Confirm in
      let s2 := next p s1 (SelectOption "found-another-course") in
      let s3 := next p s2 Submit in
      let s4 := next p s3 Close in
      modalState p initial = phaseName CONFIRM
      /\ modalState p s1 = phaseName REASON
      /\ modalState p s2 = phaseName REASON
      /\ modalState p s3 = phaseName FINISHED
      /\ modalState p s4 = phaseName CONFIRM
      /\ value p s4 = None).
Proof.
  split; [|split].
  - by_cases_on st. unfold_view. cbn.
    destruct cf; [destruct (not_null sub || sk)|]; reflexivity.
  - by_cases_on st. unfold_view. cbn. destruct sub; reflexivity.
  - cbv zeta. rewrite next_Close, Hclose. cbn. repeat split; reflexivity.
Qed.

Lemma modalState_phase_sequencing_witness :
  closeModal quietProps tt = Returns
  /\ modalState quietProps finishedSession = phaseName FINISHED
  /\ modalState quietProps (next quietProps finishedSession Close)
     = phaseName CONFIRM.
Proof.
  split; [reflexivity|].
  destruct (modalState_phase_sequencing quietProps finishedSession eq_refl)
    as (_ & _ & _ & _ & _ & H3 & H4 & _).
  split; [exact H3 | exact H4].
Defined.

(** ** Deriving the submitted value *)

(** C2. [submit ()] sets the submitted value to the custom text when the
    selection is ["custom"], and to the selection itself otherwise.  So
    selecting ["custom"], typing ["too expensive"] and submitting gives
    ["too expensive"]; selecting ["found-another-course"] and submitting
    gives ["found-another-course"]. *)
Theorem submit_derives_value (p : props) (st : state.t) :
  value p (next p st Submit)
    = (if strict_eq (selected p st) "custom"
       then Some (customOptionValue p st)
       else selected p st)
  /\ value p (run p st [SelectOption "custom"; OnChange "too expensive";
                        Submit])
     = Some "too expensive"
  /\ value p (run p st [SelectOption "found-another-course"; Submit])
     = Some "found-another-course".
Proof.
  split; [|split].
  - rewrite next_Submit. reflexivity.
  - reflexivity.
  - reflexivity.
Qed.

(** [submit] reads the selection and the text of the render it belongs to:
    called in the same event as [selectOption], before the next render, it
    still sees the old selection.  The properties below are about calls made
    one event after the other, as the view makes them. *)
Lemma submit_reads_its_render (p : props) :
  value p (nextBatch p initial [SelectOption "custom"; Submit]) = None
  /\ value p (run p initial [SelectOption "custom"; Submit]) = Some "".
Proof. split; reflexivity. Qed.

(** ** What [close] and [closeAndRefresh] do, in order *)

Lemma clear_effects (st : state.t) :
  Reason.clear (useUnenrollReasons st) = (clearCalls, Normal tt).
Proof. reflexivity. Qed.

Lemma close_runs (p : props) (st : state.t) :
  UnenrollData.close (useUnenrollData p st) =
  match closeModal p tt with
  | Returns => (CallCloseModal :: SetConfirmed false :: clearCalls, Normal tt)
  | Throws e => ([CallCloseModal], Abrupt e)
  end.
Proof. cbn. destruct (closeModal p tt); reflexivity. Qed.

Lemma closeAndRefresh_runs (p : props) (st : state.t) :
  UnenrollData.closeAndRefresh (useUnenrollData p st) =
  match dispatch p RefreshList with
  | Returns =>
      match closeModal p tt with
      | Returns =>
          (CallDispatch RefreshList :: CallCloseModal
             :: SetConfirmed false :: clearCalls, Normal tt)
      | Throws e => ([CallDispatch RefreshList; CallCloseModal], Abrupt e)
      end
  | Throws e => ([CallDispatch RefreshList], Abrupt e)
  end.
Proof.
  cbn. unfold thunkActions.app.refreshList.
  destruct (dispatch p RefreshList); [|reflexivity].
  destruct (closeModal p tt); reflexivity.
Qed.

(** C3. Whatever the callbacks do, what [closeAndRefresh ()] does is an
    initial part of: dispatch the refresh action, call [closeModal], set
    [isConfirmed] to false, then the setter calls of [reason.clear ()];
    the dispatch is always first, and when both callbacks return it is the
    whole of that sequence.  So no setter is ever called before both
    callbacks have been called, and [closeModal] never before the
    dispatch. *)
Theorem closeAndRefresh_order (p : props) (st : state.t) :
  let log := effects (UnenrollData.closeAndRefresh (useUnenrollData p st)) in
  let whole :=
    [CallDispatch (thunkActions.app.refreshList tt); CallCloseModal;
     SetConfirmed false]
    ++ effects (Reason.clear (reasonOf p st)) in
  (exists rest, log ++ rest = whole)
  /\ hd_error log = Some (CallDispatch RefreshList)
  /\ log = (if returns (dispatch p RefreshList)
            then if returns (closeModal p tt)
                 then whole
                 else [CallDispatch RefreshList; CallCloseModal]
            else [CallDispatch RefreshList])
  /\ effects (Reason.clear (reasonOf p st))
     = [SetSelectedReason None; SetSubmittedReason None;
        SetCustomOption ""; SetIsSkipped false].
Proof.
  cbv zeta. rewrite closeAndRefresh_runs.
  unfold reasonOf. change (UnenrollData.reason (useUnenrollData p st))
    with (useUnenrollReasons st).
  rewrite clear_effects. unfold thunkActions.app.refreshList, clearCalls.
  destruct (dispatch p RefreshList); [destruct (closeModal p tt)|]; cbn.
  - repeat split. exists []. reflexivity.
  - repeat split. eexists. reflexivity.
  - repeat split. eexists. reflexivity.
Qed.

(** ** Exceptions of the callbacks *)

(** A handler ends normally exactly when the callbacks it calls return. *)
Lemma handler_completes (p : props) (st : state.t) (c : call) :
  completes (handler (useUnenrollData p st) c) = callbacksReturn p c.
Proof.
  destruct c; try reflexivity.
  - cbn [handler]. cbn [UnenrollData.reason]. cbn.
    destruct (strict_eq (state.selectedReason st) "custom"); reflexivity.
  - cbn [handler]. rewrite close_runs. cbn.
    destruct (closeModal p tt); reflexivity.
  - cbn [handler]. rewrite closeAndRefresh_runs. cbn.
    unfold thunkActions.app.refreshList.
    destruct (dispatch p RefreshList); [destruct (closeModal p tt)|];
      reflexivity.
Qed.

(** A handler that ends with an exception has called no setter: the cells
    are as they were. *)
Lemma abrupt_keeps_state (p : props) (st : state.t) (c : call) :
  completes (handler (useUnenrollData p st) c) = false -> next p st c = st.
Proof.
  rewrite handler_completes. destruct c; cbn [callbacksReturn];
    try discriminate.
  - rewrite next_Close. intros ->. reflexivity.
  - rewrite next_CloseAndRefresh. unfold thunkActions.app.refreshList.
    intros ->. reflexivity.
Qed.

(** C4, as the spec states it, fails: with a [closeModal] that throws,
    [close ()] of a finished session ends with that exception, after the
    call of [closeModal] and nothing else; the session is still confirmed
    and its reason still set. *)
Lemma close_propagates_exception :
  step closeThrows finishedSession Close
    = (finishedSession, [CallCloseModal], Abrupt "closeModal failed")
  /\ completes (handler (useUnenrollData closeThrows finishedSession) Close)
     = false
  /\ isConfirmed closeThrows (next closeThrows finishedSession Close) = true
  /\ value closeThrows (next closeThrows finishedSession Close)
     = Some "found-another-course"
  /\ next dispatchThrows finishedSession CloseAndRefresh = finishedSession.
Proof. repeat split. Qed.

(** C4, amended.  No handler catches anything.  A handler ends normally
    exactly when every callback it gets to call returns; the handlers other
    than [close] and [closeAndRefresh] call none and always end normally.
    [close ()] resets every cell to its initial value when [closeModal]
    returns and leaves the cells as they were when it throws;
    [closeAndRefresh ()] resets every cell when [dispatch] and [closeModal]
    both return and leaves the cells as they were when either throws; the
    exception reaches the caller. *)
Theorem reset_completes_iff_callbacks_return
  (p : props) (st : state.t) (c : call) :
  completes (handler (useUnenrollData p st) c) = callbacksReturn p c
  /\ next p st Close
     = (if returns (closeModal p tt) then initial else st)
  /\ next p st CloseAndRefresh
     = (if returns (dispatch p RefreshList) && returns (closeModal p tt)
        then initial else st)
  /\ snd (UnenrollData.close (useUnenrollData p st))
     = match closeModal p tt with
       | Returns => Normal tt
       | Throws e => Abrupt e
       end
  /\ snd (UnenrollData.closeAndRefresh (useUnenrollData p st))
     = match dispatch p RefreshList with
       | Returns =>
           match closeModal p tt with
           | Returns => Normal tt
           | Throws e => Abrupt e
           end
       | Throws e => Abrupt e
       end
  /\ match c with
     | Close | CloseAndRefresh => True
     | _ => callbacksReturn p c = true
     end.
Proof.
  split; [apply handler_completes|].
  split; [apply next_Close|].
  split; [apply next_CloseAndRefresh|].
  split; [rewrite close_runs; destruct (closeModal p tt); reflexivity|].
  split.
  - rewrite closeAndRefresh_runs.
    destruct (dispatch p RefreshList); [destruct (closeModal p tt)|];
      reflexivity.
  - destruct c; cbn; exact I || reflexivity.
Qed.

(** ** From CONFIRM to the next phase *)

(** C5, as the spec states it, fails: [skip ()] before [confirm ()] is a
    state a session can be in, it reads CONFIRM, and one [confirm ()] later
    the phase reads FINISHED. *)
Lemma confirm_after_skip_reads_finished :
  reachable skippedFirst
  /\ modalState quietProps skippedFirst = modalStates.confirm
  /\ modalState quietProps (next quietProps skippedFirst Confirm)
     = modalStates.finished.
Proof.
  split; [|split; reflexivity].
  unfold skippedFirst. apply reachable_next. apply reachable_initial.
Qed.

(** A render reads CONFIRM only when the confirmed flag is false. *)
Lemma confirm_phase_unconfirmed (p : props) (st : state.t) :
  modalState p st = modalStates.confirm -> state.confirmed st = false.
Proof.
  by_cases_on st. unfold_view. cbn. intros Hphase.
  destruct cf; [|reflexivity].
  destruct (not_null sub || sk); discriminate Hphase.
Qed.

(** The phase one call after an unconfirmed state. *)
Lemma unconfirmed_next (p q : props) (st : state.t) (c : call) :
  state.confirmed st = false ->
  modalState q (next p st c)
  = match c with
    | Confirm =>
        if isSubmitted p st then modalStates.finished else modalStates.reason
    | _ => modalStates.confirm
    end.
Proof.
  intros Hcf.
  assert (Hphase : modalState q st = modalStates.confirm).
  { unfold_view. cbn. rewrite Hcf. reflexivity. }
  destruct c.
  - rewrite next_Confirm. reflexivity.
  - rewrite next_SelectOption. unfold_view. cbn. rewrite Hcf. reflexivity.
  - rewrite next_OnChange. unfold_view. cbn. rewrite Hcf. reflexivity.
  - rewrite next_Skip. unfold_view. cbn. rewrite Hcf. reflexivity.
  - rewrite next_Submit. unfold_view. cbn. rewrite Hcf. reflexivity.
  - rewrite next_Clear. unfold_view. cbn. rewrite Hcf. reflexivity.
  - rewrite next_Close. destruct (returns (closeModal p tt)); [reflexivity|].
    exact Hphase.
  - rewrite next_CloseAndRefresh.
    destruct (returns (dispatch p RefreshList) && returns (closeModal p tt));
      [reflexivity | exact Hphase].
Qed.

(** C5, amended.  From a render that reads CONFIRM, every call other than
    [confirm ()] leaves the phase at CONFIRM; [confirm ()] moves it to
    REASON when [isSubmitted] is false and to FINISHED when [isSubmitted]
    is already true. *)
Theorem phase_after_confirm_phase
  (p q : props) (st : state.t) (c : call)
  (Hphase : modalState p st = modalStates.confirm) :
  modalState q (next p st c)
  = match c with
    | Confirm =>
        if isSubmitted p st then modalStates.finished else modalStates.reason
    | _ => modalStates.confirm
    end.
Proof.
  apply unconfirmed_next. exact (confirm_phase_unconfirmed p st Hphase).
Qed.

Lemma phase_after_confirm_phase_witness :
  modalState quietProps skippedFirst = modalStates.confirm
  /\ modalState quietProps (next quietProps skippedFirst Confirm)
     = modalStates.finished.
Proof.
  split; [reflexivity|].
  exact (phase_after_confirm_phase quietProps quietProps skippedFirst Confirm
           eq_refl).
Defined.

(** Under the view's discipline the reason is never decided before the
    confirmation, and then no render reads FINISHED right after one that
    read CONFIRM. *)
Lemma presented_unconfirmed_undecided (st : state.t) :
  presented st ->
  state.confirmed st = false ->
  state.submittedReason st = None /\ state.isSkipped st = false.
Proof.
  induction 1 as [|p st c Hst IH Hoffer]; [split; reflexivity|].
  destruct c; cbn in Hoffer.
  - rewrite next_Confirm. cbn. discriminate.
  - rewrite next_SelectOption. cbn. rewrite Hoffer. discriminate.
  - rewrite next_OnChange. cbn. rewrite Hoffer. discriminate.
  - rewrite next_Skip. cbn. rewrite Hoffer. discriminate.
  - rewrite next_Submit. cbn. rewrite Hoffer. discriminate.
  - rewrite next_Clear. cbn. split; reflexivity.
  - rewrite next_Close. destruct (returns (closeModal p tt)).
    + split; reflexivity.
    + exact IH.
  - rewrite next_CloseAndRefresh.
    destruct (returns (dispatch p RefreshList) && returns (closeModal p tt)).
    + split; reflexivity.
    + exact IH.
Qed.

Lemma presented_confirm_then_reason (p q : props) (st : state.t) (c : call) :
  presented st ->
  modalState p st = modalStates.confirm ->
  modalState q (next p st c) <> modalStates.finished.
Proof.
  intros Hst Hphase.
  pose proof (confirm_phase_unconfirmed p st Hphase) as Hcf.
  rewrite (unconfirmed_next p q st c Hcf).
  destruct (presented_unconfirmed_undecided st Hst Hcf) as [Hsub Hsk].
  assert (Hno : isSubmitted p st = false).
  { unfold_view. cbn. rewrite Hsub, Hsk. reflexivity. }
  destruct c; try rewrite Hno; cbv; discriminate.
Qed.

(** ** Reason Capture on its own *)

(** C6. After any sequence of calls from any state, [clear ()] ends
    normally and the next render reads [selected = null],
    [customOption.value = ""], [isSkipped = false], [value = null] and
    [isSubmitted = false]; the four cells change together, in the one
    commit of that handler, and the confirmed flag is left as it was. *)
Theorem clear_resets_reason (p : props) (st : state.t) (cs : list call) :
  let before := run p st cs in
  let after := next p before Clear in
  completes (Reason.clear (reasonOf p before)) = true
  /\ selected p after = None
  /\ customOptionValue p after = ""
  /\ isSkipped p after = false
  /\ value p after = None
  /\ isSubmitted p after = false
  /\ isConfirmed p after = isConfirmed p before
  /\ after = state.mk (state.confirmed before)
               (state.customOption initial) (state.isSkipped initial)
               (state.selectedReason initial) (state.submittedReason initial).
Proof.
  cbv zeta. rewrite next_Clear. repeat split.
Qed.

(** C7. With nothing selected and nothing submitted, [skip ()] makes
    [isSubmitted] true and leaves [value] at [null]. *)
Theorem skip_decides_without_value
  (p : props) (st : state.t)
  (Hselected : selected p st = None) (Hvalue : value p st = None) :
  isSubmitted p (next p st Skip) = true
  /\ value p (next p st Skip) = None
  /\ isSkipped p (next p st Skip) = true.
Proof.
  rewrite next_Skip. unfold_view. cbn in *. rewrite Hvalue.
  repeat split.
Qed.

Lemma skip_decides_without_value_witness :
  selected quietProps initial = None
  /\ value quietProps initial = None
  /\ isSubmitted quietProps (next quietProps initial Skip) = true
  /\ value quietProps (next quietProps initial Skip) = None
  /\ isSkipped quietProps (next quietProps initial Skip) = true.
Proof.
  split; [reflexivity|]. split; [reflexivity|].
  exact (skip_decides_without_value quietProps initial eq_refl eq_refl).
Defined.

(** C8. A second [confirm ()] and a second [skip ()] change nothing: the
    cells after two calls are the cells after one, whatever callbacks the
    two renders had; after the second [confirm ()], [isConfirmed] is true
    and the phase is the one read after the first. *)
Theorem confirm_skip_idempotent (p q : props) (st : state.t) :
  next q (next p st Confirm) Confirm = next p st Confirm
  /\ next q (next p st Skip) Skip = next p st Skip
  /\ isConfirmed q (next q (next p st Confirm) Confirm) = true
  /\ modalState q (next q (next p st Confirm) Confirm)
     = modalState p (next p st Confirm).
Proof.
  rewrite !next_Confirm, !next_Skip. repeat split.
Qed.

(** C9. With nothing selected, [submit ()] ends normally, its one effect is
    setting the submitted reason to [null], and [value] reads [null] at the
    next render; if the reason was not skipped, [isSubmitted] still reads
    false, and the phase reads REASON when the session is confirmed
    (CONFIRM when it is not). *)
Theorem submit_without_selection
  (p : props) (st : state.t)
  (Hselected : selected p st = None) (Hskipped : isSkipped p st = false) :
  handler (useUnenrollData p st) Submit
    = ([SetSubmittedReason None], Normal tt)
  /\ value p (next p st Submit) = None
  /\ isSubmitted p (next p st Submit) = false
  /\ modalState p (next p st Submit)
     = (if isConfirmed p st then modalStates.reason else modalStates.confirm).
Proof.
  rewrite next_Submit. by_cases_on st. unfold_view. cbn in *.
  subst sel sk. cbn. repeat split.
Qed.

Lemma submit_without_selection_witness :
  selected quietProps (next quietProps initial Confirm) = None
  /\ isSkipped quietProps (next quietProps initial Confirm) = false
  /\ value quietProps (run quietProps initial [Confirm; Submit]) = None
  /\ modalState quietProps (run quietProps initial [Confirm; Submit])
     = modalStates.reason.
Proof.
  split; [reflexivity|]. split; [reflexivity|].
  destruct (submit_without_selection quietProps
              (next quietProps initial Confirm) eq_refl eq_refl)
    as (_ & Hv & _ & Hm).
  split; [exact Hv | exact Hm].
Defined.

(** In a state a session can be in, nothing selected means nothing
    submitted: there [submit ()] without a selection changes no cell. *)
Lemma reachable_unselected_unsubmitted (st : state.t) :
  reachable st ->
  state.selectedReason st = None -> state.submittedReason st = None.
Proof.
  induction 1 as [|p st c Hst IH]; [reflexivity|].
  destruct c.
  - rewrite next_Confirm. exact IH.
  - rewrite next_SelectOption. cbn. discriminate.
  - rewrite next_OnChange. exact IH.
  - rewrite next_Skip. exact IH.
  - rewrite next_Submit. cbn. intros Hsel. rewrite Hsel. reflexivity.
  - rewrite next_Clear. reflexivity.
  - rewrite next_Close. destruct (returns (closeModal p tt)).
    + reflexivity.
    + exact IH.
  - rewrite next_CloseAndRefresh.
    destruct (returns (dispatch p RefreshList) && returns (closeModal p tt)).
    + reflexivity.
    + exact IH.
Qed.

Lemma submit_without_selection_noop (p : props) (st : state.t) :
  reachable st -> state.selectedReason st = None -> next p st Submit = st.
Proof.
  intros Hst Hsel.
  pose proof (reachable_unselected_unsubmitted st Hst Hsel) as Hsub.
  rewrite next_Submit. by_cases_on st. subst sel sub. reflexivity.
Qed.

(** C10. With the custom text empty, selecting ["custom"] and submitting
    gives [value = ""], which is not [null]: [isSubmitted] reads true and
    the phase reads FINISHED when the session is confirmed (CONFIRM when it
    is not).  The same holds from any state when the text is set to [""]
    between the selection and the submission. *)
Theorem submit_custom_empty_text
  (p : props) (st : state.t) (Hempty : customOptionValue p st = "") :
  let direct := run p st [SelectOption "custom"; Submit] in
  let typed := run p st [SelectOption "custom"; OnChange ""; Submit] in
  value p direct = Some ""
  /\ isSubmitted p direct = true
  /\ modalState p direct
     = (if isConfirmed p st then modalStates.finished
        else modalStates.confirm)
  /\ typed = direct
  /\ value p (run p initial [SelectOption "custom"; Submit]) = Some "".
Proof.
  by_cases_on st. unfold_view. cbn in Hempty. subst txt.
  cbv zeta. repeat split.
Qed.

Lemma submit_custom_empty_text_witness :
  customOptionValue quietProps (next quietProps initial Confirm) = ""
  /\ value quietProps
       (run quietProps initial [Confirm; SelectOption "custom"; Submit])
     = Some ""
  /\ modalState quietProps
       (run quietProps initial [Confirm; SelectOption "custom"; Submit])
     = modalStates.finished.
Proof.
  split; [reflexivity|].
  destruct (submit_custom_empty_text quietProps
              (next quietProps initial Confirm) eq_refl)
    as (Hv & _ & Hm & _).
  split; [exact Hv | exact Hm].
Defined.

(** * Further properties of the hooks *)

(** ** The states a session can be in *)







(** ** Leaving FINISHED *)



(** ** The view's discipline *)



(** ** Which call writes which cell *)

(** X5. A call leaves every cell alone whose setter its handler does not
    name: [confirm] writes only the confirmed flag, [selectOption] only the
    selection, [customOption.onChange] only the text, [skip] only the
    skipped flag, [submit] only the submitted reason, and [clear] never the
    confirmed flag. *)
Theorem call_keeps_other_cells
  (p : props) (st : state.t) (c : call) (x : cell)
  (Hother : setterOf c x = false) :
  sameCell x st (next p st c).
Proof.
  destruct c; destruct x; try discriminate Hother; try reflexivity;
    rewrite next_Submit; reflexivity.
Qed.

Lemma call_keeps_other_cells_witness :
  setterOf Submit SelectedReasonCell = false
  /\ sameCell SelectedReasonCell finishedSession
       (next quietProps finishedSession Submit).
Proof.
  split; [reflexivity|].
  exact (call_keeps_other_cells quietProps finishedSession Submit
           SelectedReasonCell eq_refl).
Defined.

(** ** The custom text *)

Lemma run_app (p : props) (st : state.t) (cs ds : list call) :
  run p st (cs ++ ds) = run p (run p st cs) ds.
Proof.
  revert st. induction cs as [|c cs IH]; intros st; cbn.
  - reflexivity.
  - apply IH.
Qed.

Lemma value_next_Submit (p : props) (st : state.t) :
  value p (next p st Submit) = submitted st.
Proof. rewrite next_Submit. reflexivity. Qed.

(** X6. The custom text matters only under the selection ["custom"]: with
    any other selection, or none, typing any number of texts before
    [submit ()] gives the value that [submit ()] alone gives. *)
Theorem custom_text_inert
  (p : props) (st : state.t) (texts : list string)
  (Hselected : selected p st <> Some "custom") :
  value p (run p st (map OnChange texts ++ [Submit]))
  = value p (next p st Submit).
Proof.
  assert (Hno : strict_eq (state.selectedReason st) "custom" = false).
  { destruct (strict_eq (state.selectedReason st) "custom") eqn:E;
      [|reflexivity].
    apply strict_eq_true_iff in E. contradiction. }
  clear Hselected. rewrite value_next_Submit. unfold submitted.
  rewrite Hno. revert st Hno.
  induction texts as [|t texts IH]; intros st Hno.
  - cbn [map app run]. rewrite value_next_Submit. unfold submitted.
    rewrite Hno. reflexivity.
  - cbn [map app run]. rewrite next_OnChange.
    rewrite IH; [reflexivity | exact Hno].
Qed.

Lemma custom_text_inert_witness :
  selected quietProps finishedSession <> Some "custom"
  /\ value quietProps
       (run quietProps finishedSession [OnChange "a"; OnChange "b"; Submit])
     = Some "found-another-course".
Proof.
  assert (H : selected quietProps finishedSession <> Some "custom")
    by (cbn; discriminate).
  split; [exact H|].
  exact (custom_text_inert quietProps finishedSession ["a"; "b"] H).
Defined.

(** ** Calls in a row *)

(** X7. How the calls of Reason Capture compose: of two [selectOption]
    calls, or two [customOption.onChange] calls, the later one wins;
    [selectOption] and [customOption.onChange] commute; a second
    [submit ()] and a second [clear ()] change nothing. *)
Theorem reason_calls_compose
  (p q : props) (st : state.t) (a b text : string) :
  next q (next p st (SelectOption a)) (SelectOption b)
    = next p st (SelectOption b)
  /\ next q (next p st (OnChange a)) (OnChange b) = next p st (OnChange b)
  /\ next q (next p st (SelectOption a)) (OnChange text)
     = next q (next p st (OnChange text)) (SelectOption a)
  /\ next q (next p st Submit) Submit = next p st Submit
  /\ next q (next p st Clear) Clear = next p st Clear.
Proof.
  repeat split.
  rewrite !next_Submit. cbn.
  destruct (strict_eq (state.selectedReason st) "custom"); reflexivity.
Qed.

(** ** Handlers of one render *)

Lemma handler_normal (p : props) (st : state.t) (c : call) :
  callbacksReturn p c = true ->
  handler (useUnenrollData p st) c
  = (effects (handler (useUnenrollData p st) c), Normal tt).
Proof.
  intros Hret. rewrite <- (handler_completes p st c) in Hret.
  unfold completes, effects in *.
  destruct (handler (useUnenrollData p st) c) as [l [[]|e]]; cbn in *.
  - reflexivity.
  - discriminate Hret.
Qed.

Lemma batch_then_submit (p : props) (st : state.t) (cs : list call) :
  forallb (callbacksReturn p) cs = true ->
  exists log,
    batch (useUnenrollData p st) (cs ++ [Submit])
    = (log ++ [SetSubmittedReason (submitted st)], Normal tt).
Proof.
  induction cs as [|c cs IH]; intros Hret.
  - exists []. cbn. unfold submitted.
    destruct (strict_eq (state.selectedReason st) "custom"); reflexivity.
  - cbn [forallb] in Hret. apply andb_true_iff in Hret as [Hc Hcs].
    destruct (IH Hcs) as [log Hlog].
    exists (effects (handler (useUnenrollData p st) c) ++ log).
    cbn [app batch]. rewrite (handler_normal p st c Hc), Hlog.
    cbn. rewrite app_assoc. reflexivity.
Qed.

(** X8. [submit] reads the selection and the text of the render it was made
    in.  Called in the same event as other handlers of that render, after
    them, it submits what that render had selected, whatever those handlers
    set; called one event after them, it submits what they selected. *)
Theorem batched_submit_reads_render
  (p : props) (st : state.t) (cs : list call)
  (Hreturn : forallb (callbacksReturn p) cs = true) :
  value p (nextBatch p st (cs ++ [Submit])) = submitted st
  /\ value p (run p st (cs ++ [Submit])) = submitted (run p st cs).
Proof.
  split.
  - destruct (batch_then_submit p st cs Hreturn) as [log Hlog].
    unfold nextBatch, effects. rewrite Hlog. cbn [fst].
    unfold commit. rewrite fold_left_app. reflexivity.
  - rewrite run_app. cbn [run]. apply value_next_Submit.
Qed.

Lemma batched_submit_reads_render_witness :
  forallb (callbacksReturn quietProps)
    [SelectOption "custom"; OnChange "too expensive"] = true
  /\ value quietProps
       (nextBatch quietProps finishedSession
          [SelectOption "custom"; OnChange "too expensive"; Submit])
     = Some "found-another-course"
  /\ value quietProps
       (run quietProps finishedSession
          [SelectOption "custom"; OnChange "too expensive"; Submit])
     = Some "too expensive".
Proof.
  split; [reflexivity|].
  exact (batched_submit_reads_render quietProps finishedSession
           [SelectOption "custom"; OnChange "too expensive"] eq_refl).
Defined.

(** * Properties of the test utilities *)

(** ** Searching and replacing in a string *)



Lemma startsWith_append (pat s : string) :
  startsWith pat (pat ++ s) = true
  /\ slice (String.length pat) (pat ++ s) = s.
Proof.
  induction pat as [|a pat [IH1 IH2]]; cbn.
  - split; [reflexivity | destruct s; reflexivity].
  - rewrite Ascii.eqb_refl, IH1. split; [reflexivity | exact IH2].
Qed.


Lemma splitFirst_absent (c : ascii) (pat s : string) :
  occurs c s = false -> splitFirst (String c pat) s = None.
Proof.
  induction s as [|d s IH]; intros H; cbn in *.
  - reflexivity.
  - apply orb_false_iff in H as [Hd Hs].
    rewrite Ascii.eqb_sym, Hd. cbn. rewrite (IH Hs). reflexivity.
Qed.

Lemma splitFirst_at (c : ascii) (pat pre post : string) :
  occurs c pre = false ->
  splitFirst (String c pat) (pre ++ String c pat ++ post)
  = Some (pre, post).
Proof.
  induction pre as [|d pre IH]; intros H.
  - cbn [append splitFirst].
    destruct (startsWith_append (String c pat) post) as [H1 H2].
    cbn [append] in H1, H2. rewrite H1, H2.
    destruct post; reflexivity.
  - cbn in H. apply orb_false_iff in H as [Hd Hpre].
    change (String d pre ++ String c pat ++ post)%string
      with (String d (pre ++ String c pat ++ post)%string).
    cbn [splitFirst startsWith].
    rewrite Ascii.eqb_sym, Hd. cbn [andb]. rewrite (IH Hpre). reflexivity.
Qed.

Lemma getSubstitution_plain (matched before after template : string) :
  occurs "$" template = false ->
  getSubstitution matched before after template = template.
Proof.
  induction template as [|c rest IH]; intros H; cbn in *.
  - reflexivity.
  - apply orb_false_iff in H as [Hc Hrest].
    rewrite Hc. f_equal. apply IH, Hrest.
Qed.

Lemma placeholder_head (key : string) :
  placeholder key = String "{" (key ++ "}").
Proof. reflexivity. Qed.

Lemma occurs_append (c : ascii) (a b : string) :
  occurs c (a ++ b) = occurs c a || occurs c b.
Proof.
  induction a as [|d a IH]; cbn; [reflexivity|].
  rewrite IH. apply orb_assoc.
Qed.

Lemma replace_at (pre key post v : string) :
  occurs "{" pre = false ->
  stringReplace (pre ++ placeholder key ++ post) (placeholder key) v
  = (pre ++ getSubstitution (placeholder key) pre post v ++ post)%string.
Proof.
  intros Hpre. unfold stringReplace. rewrite placeholder_head.
  rewrite (splitFirst_at "{" (key ++ "}") pre post Hpre). reflexivity.
Qed.

(** ** [formatMessage] *)

(** X9. A message without an opening brace is returned as it is, whatever
    the values. *)
Theorem formatMessage_without_braces
  (msg : Message.t) (values : option (object string))
  (Hplain : occurs "{" (Message.defaultMessage msg) = false) :
  formatMessage msg values = Message.defaultMessage msg.
Proof.
  destruct values as [vs|]; [|reflexivity].
  unfold formatMessage. cbv zeta.
  generalize dependent (Message.defaultMessage msg). intros m Hplain.
  induction vs as [|[key v] vs IH]; cbn [fold_left].
  - reflexivity.
  - unfold stringReplace at 2. rewrite placeholder_head.
    rewrite (splitFirst_absent "{" (key ++ "}") m Hplain). exact IH.
Qed.

Lemma formatMessage_without_braces_witness :
  occurs "{" (Message.defaultMessage (Message.mk "Unenroll")) = false
  /\ formatMessage (Message.mk "Unenroll") (Some [("name", "Bob")])
     = "Unenroll".
Proof.
  split; [reflexivity|].
  exact (formatMessage_without_braces (Message.mk "Unenroll")
           (Some [("name", "Bob")]) eq_refl).
Defined.

(** X10. The first placeholder of a key is replaced by the key's value and
    nothing else changes: when the text before it has no opening brace and
    the value no dollar sign, the result is that text, the value, and the
    text after the placeholder as it was, later placeholders of the same key
    included. *)
Theorem formatMessage_fills_first_placeholder
  (pre key v post : string)
  (Hpre : occurs "{" pre = false) (Hv : occurs "$" v = false) :
  formatMessage (Message.mk (pre ++ placeholder key ++ post))
    (Some [(key, v)])
  = (pre ++ v ++ post)%string.
Proof.
  unfold formatMessage. cbn [Message.defaultMessage fold_left].
  rewrite (replace_at pre key post v Hpre).
  rewrite (getSubstitution_plain _ _ _ v Hv). reflexivity.
Qed.

Lemma formatMessage_fills_first_placeholder_witness :
  occurs "{" "Hello " = false
  /\ occurs "$" "Bob" = false
  /\ formatMessage (Message.mk "Hello {name}, {name}!")
       (Some [("name", "Bob")])
     = "Hello Bob, {name}!".
Proof.
  split; [reflexivity|]. split; [reflexivity|].
  exact (formatMessage_fills_first_placeholder "Hello " "name" "Bob"
           ", {name}!" eq_refl eq_refl).
Defined.




(** X12. The values are substituted one after the other into the result so
    far: a placeholder brought in by the value of one key is filled by the
    value of a later key. *)
Theorem formatMessage_substitutes_in_sequence
  (pre a b v post : string)
  (Hpre : occurs "{" pre = false)
  (Hb : occurs "$" b = false) (Hv : occurs "$" v = false) :
  formatMessage (Message.mk (pre ++ placeholder a ++ post))
    (Some [(a, placeholder b); (b, v)])
  = (pre ++ v ++ post)%string.
Proof.
  unfold formatMessage. cbn [Message.defaultMessage fold_left].
  rewrite (replace_at pre a post _ Hpre).
  rewrite getSubstitution_plain.
  - rewrite (replace_at pre b post v Hpre).
    rewrite (getSubstitution_plain _ _ _ v Hv). reflexivity.
  - rewrite placeholder_head. cbn [occurs]. rewrite occurs_append, Hb.
    reflexivity.
Qed.

Lemma formatMessage_substitutes_in_sequence_witness :
  occurs "{" "Dear " = false
  /\ occurs "$" "title" = false
  /\ occurs "$" "Dr" = false
  /\ formatMessage (Message.mk "Dear {who}.")
       (Some [("who", "{title}"); ("title", "Dr")])
     = "Dear Dr.".
Proof.
  split; [reflexivity|]. split; [reflexivity|]. split; [reflexivity|].
  exact (formatMessage_substitutes_in_sequence "Dear " "who" "title" "Dr" "."
           eq_refl eq_refl eq_refl).
Defined.

(** ** Building an object key by key *)

Lemma distinct_NoDup (keys : list string) :
  distinct keys = true -> NoDup keys.
Proof.
  induction keys as [|k keys IH]; cbn; intros H.
  - constructor.
  - apply andb_true_iff in H as [Hk Hrest].
    constructor; [|apply IH, Hrest].
    intros Hin. apply negb_true_iff in Hk.
    assert (Hex : existsb (String.eqb k) keys = true).
    { apply existsb_exists. exists k. split; [exact Hin|].
      apply String.eqb_refl. }
    congruence.
Qed.

Lemma assign_fresh {A : Type} (obj : object A) (key : string) (v : A) :
  ~ In key (map fst obj) -> assign obj key v = obj ++ [(key, v)].
Proof.
  induction obj as [|[k w] obj IH]; cbn; intros Hfresh.
  - reflexivity.
  - destruct (String.eqb k key) eqn:E.
    + apply String.eqb_eq in E. exfalso. apply Hfresh. left. exact E.
    + rewrite IH; [reflexivity|]. intros Hin. apply Hfresh. right. exact Hin.
Qed.

(** With distinct keys, assigning the entries one by one lists them in
    their order. *)
Lemma fold_assign {A B : Type} (f : string -> A -> B)
  (entries : object A) (acc : object B) :
  NoDup (map fst acc ++ map fst entries) ->
  fold_left (fun obj '(k, v) => assign obj k (f k v)) entries acc
  = acc ++ map (fun kv => (fst kv, f (fst kv) (snd kv))) entries.
Proof.
  revert acc. induction entries as [|[k v] entries IH]; intros acc Hnd.
  - cbn. symmetry. apply app_nil_r.
  - cbn [fold_left map fst snd].
    assert (Hfresh : ~ In k (map fst acc)).
    { intros Hin. cbn in Hnd. apply NoDup_remove_2 in Hnd.
      apply Hnd. apply in_or_app. left. exact Hin. }
    rewrite (assign_fresh acc k (f k v) Hfresh).
    rewrite IH.
    + rewrite <- app_assoc. reflexivity.
    + rewrite map_app. cbn. rewrite <- app_assoc. exact Hnd.
Qed.

Lemma get_map {A B : Type} (f : string -> A -> B)
  (entries : object A) (key : string) :
  get (map (fun kv => (fst kv, f (fst kv) (snd kv))) entries) key
  = option_map (f key) (get entries key).
Proof.
  induction entries as [|[k v] entries IH]; cbn.
  - reflexivity.
  - destruct (String.eqb k key) eqn:E.
    + apply String.eqb_eq in E. subst k. reflexivity.
    + exact IH.
Qed.

Lemma get_In {A : Type} (entries : object A) (key : string) (v : A) :
  get entries key = Some v -> In (key, v) entries.
Proof.
  induction entries as [|[k w] entries IH]; cbn; intros H.
  - discriminate H.
  - destruct (String.eqb k key) eqn:E.
    + apply String.eqb_eq in E. injection H as ->. subst k. left.
      reflexivity.
    + right. apply IH, H.
Qed.

(** ** [mockNestedComponent] and [mockNestedComponents] *)

(** The test on [typeof value] before the recursive call repeats the one
    the call makes itself. *)
Lemma child_component (name : string) (value : contents) :
  match value with
  | Name s => Rendered s
  | Children _ => mockNestedComponent name value
  end = mockNestedComponent name value.
Proof. destruct value; reflexivity. Qed.

Lemma fold_left_ext {A B : Type} (f g : A -> B -> A) (l : list B) (a : A) :
  (forall x y, f x y = g x y) -> fold_left f l a = fold_left g l a.
Proof.
  intros Hfg. revert a. induction l as [|b l IH]; intros a; cbn.
  - reflexivity.
  - rewrite Hfg. apply IH.
Qed.

Lemma mockNestedComponent_children (name : string) (entries : object contents) :
  NoDup (map fst entries) ->
  mockNestedComponent name (Children entries)
  = MockFn name
      (map (fun kv =>
              (fst kv,
               mockNestedComponent (name ++ "." ++ fst kv) (snd kv)))
         entries).
Proof.
  intros Hnd. cbn [mockNestedComponent]. f_equal.
  rewrite (fold_left_ext _
    (fun obj '(k, v) =>
       assign obj k (mockNestedComponent (name ++ "." ++ k) v))).
  - rewrite (fold_assign
      (fun k v => mockNestedComponent (name ++ "." ++ k) v) entries []).
    + reflexivity.
    + exact Hnd.
  - intros obj [k v]. rewrite child_component. reflexivity.
Qed.

(** X13. For contents whose keys are distinct ordinary property names at
    every level, the mock mirrors the contents: whatever the contents hold
    at a path of keys, the mock holds at that path the mock of it, made
    under the parent name followed by the keys of the path, joined with
    dots.  So a nested function component is named by its dotted path, and
    a string is kept as it is. *)
Theorem nested_component_named_by_path
  (name : string) (c c' : contents) (path : list string)
  (Hkeys : wellKeyed c = true)
  (Hat : contentsAt c path = Some c') :
  componentAt (mockNestedComponent name c) path
    = Some (mockNestedComponent (dotted name path) c')
  /\ displayName (mockNestedComponent (dotted name path) c')
     = match c' with
       | Name s => s
       | Children _ => dotted name path
       end.
Proof.
  split; [|destruct c'; reflexivity].
  revert name c Hkeys Hat.
  induction path as [|k rest IH]; intros name c Hkeys Hat.
  - cbn in *. injection Hat as ->. reflexivity.
  - destruct c as [s|entries]; [discriminate Hat|].
    cbn [contentsAt] in Hat.
    destruct (get entries k) as [v|] eqn:Hget; [|discriminate Hat].
    cbn [wellKeyed] in Hkeys.
    apply andb_true_iff in Hkeys as [Hkeys Hchildren].
    apply andb_true_iff in Hkeys as [Hdistinct _].
    rewrite (mockNestedComponent_children name entries
               (distinct_NoDup _ Hdistinct)).
    cbn [componentAt].
    rewrite (get_map (fun k v => mockNestedComponent (name ++ "." ++ k) v)).
    rewrite Hget. cbn [option_map].
    apply IH; [|exact Hat].
    rewrite forallb_forall in Hchildren.
    exact (Hchildren (k, v) (get_In entries k v Hget)).
Qed.

Lemma nested_component_named_by_path_witness :
  wellKeyed cardContents = true
  /\ contentsAt cardContents ["Form"; "Control"]
     = Some (Children [("Feedback", Name "Form.Control.Feedback")])
  /\ displayName
       (mockNestedComponent "Card.Form.Control"
          (Children [("Feedback", Name "Form.Control.Feedback")]))
     = "Card.Form.Control".
Proof.
  split; [reflexivity|]. split; [reflexivity|].
  exact (proj2 (nested_component_named_by_path "Card" cardContents
                  (Children [("Feedback", Name "Form.Control.Feedback")])
                  ["Form"; "Control"] eq_refl eq_refl)).
Defined.

(** X14. For a mapping with distinct names whose contents are well keyed,
    [mockNestedComponents] returns an object with the same names in the
    same order, and under each name the mock of its contents made under
    that name. *)
Theorem mockNestedComponents_entries
  (mapping : object contents) (k : string)
  (Hnames : distinct (map fst mapping) = true)
  (Hkeys : forallb (fun kv => wellKeyed (snd kv)) mapping = true) :
  map fst (mockNestedComponents mapping) = map fst mapping
  /\ get (mockNestedComponents mapping) k
     = option_map (mockNestedComponent k) (get mapping k).
Proof.
  unfold mockNestedComponents.
  rewrite (fold_assign mockNestedComponent mapping []);
    [|apply distinct_NoDup; exact Hnames].
  cbn [app]. split.
  - rewrite map_map. reflexivity.
  - apply get_map.
Qed.

Lemma mockNestedComponents_entries_witness :
  distinct (map fst [("Card", cardContents); ("IconButton", Name "IconButton")])
    = true
  /\ forallb (fun kv => wellKeyed (snd kv))
       [("Card", cardContents); ("IconButton", Name "IconButton")] = true
  /\ get (mockNestedComponents
            [("Card", cardContents); ("IconButton", Name "IconButton")])
       "IconButton"
     = Some (Rendered "IconButton").
Proof.
  split; [reflexivity|]. split; [reflexivity|].
  exact (proj2 (mockNestedComponents_entries
                  [("Card", cardContents); ("IconButton", Name "IconButton")]
                  "IconButton" eq_refl eq_refl)).
Defined.
